(** * A shallow embedding of [main.py]

    The service has four GET handlers ([read_root], [hello],
    [test_database], [get_schema]) and a start-up block that picks the
    listening port.  The handlers consult three things outside the file:
    the process environment, the optional [database] module with its [db]
    handle, and the optional [schemas] module with its Pydantic classes.
    These are gathered in a [world] record; every handler is a function of
    the world. *)

From Stdlib Require Import ZArith.
From stdpp Require Import gmap strings list fin_maps.

Open Scope string_scope.

(** ** Python values

    A [str] is modelled by a [string]; the literals of the source that
    hold characters outside ASCII appear as their UTF-8 text.  A [dict]
    with [str] keys is a [gmap string pyval].  [PUndefined] is
    [PydanticUndefined], the sentinel a [FieldInfo] holds in [default]
    when the field declares no default value. *)

#[warnings="-register-all"]
Inductive pyval : Type :=
| PNone
| PUndefined
| PBool (b : bool)
| PInt (z : Z)
| PStr (s : string)
| PList (l : list pyval)
| PDict (d : gmap string pyval).

(** Truth value testing, as [if x] and [x if c else y] do it. *)
Definition truthy (v : pyval) : bool :=
  match v with
  | PNone => false
  | PUndefined => true
  | PBool b => b
  | PInt z => negb (z =? 0)%Z
  | PStr s => negb (String.eqb s "")
  | PList l => match l with [] => false | _ => true end
  | PDict d => match map_to_list d with [] => false | _ => true end
  end.

(** [x is not None] *)
Definition is_not_none (v : pyval) : bool :=
  match v with PNone => false | _ => true end.

(** [x is PydanticUndefined] *)
Definition is_undefined (v : pyval) : bool :=
  match v with PUndefined => true | _ => false end.

(** [s[:n]] on a string. *)
Definition str_prefix (n : nat) (s : string) : string := String.substring 0 n s.

(** ** Exceptions

    The classes are those derived from [Exception], which is what a
    failing import, attribute access or database call raises.
    [ModuleNotFoundError] is a subclass of [ImportError]. *)

Inductive exn_class : Type :=
| ImportError
| ModuleNotFoundError
| AttributeError
| TypeError
| ValueError
| OtherException (name : string).

(** An exception instance: its class and what [str(e)] gives. *)
Record exn : Type := Exn { exn_cls : exn_class; exn_str : string }.

(** The tests behind [except ImportError], [except Exception] and the
    [AttributeError] that [hasattr] swallows. *)
Definition isinstance_ImportError (e : exn) : bool :=
  match exn_cls e with
  | ImportError | ModuleNotFoundError => true
  | _ => false
  end.

Definition isinstance_AttributeError (e : exn) : bool :=
  match exn_cls e with AttributeError => true | _ => false end.

Definition isinstance_Exception (e : exn) : bool :=
  match exn_cls e with
  | ImportError | ModuleNotFoundError | AttributeError
  | TypeError | ValueError | OtherException _ => true
  end.

(** What evaluating an expression or calling a function ends in. *)
Inductive outcome (A : Type) : Type :=
| Returns (a : A)
| Raises (e : exn).
Arguments Returns {A} a.
Arguments Raises {A} e.

(** ** Statements over the local dict [response]

    [test_database] mutates one local dict while exceptions may cut a
    block short; whatever was assigned before the exception stays
    assigned.  A statement therefore maps the dict before it to its
    outcome and the dict after it. *)

Definition stmt (A : Type) : Type :=
  gmap string pyval → outcome A * gmap string pyval.

#[global] Instance stmt_ret : MRet stmt := λ A a r, (Returns a, r).

#[global] Instance stmt_bind : MBind stmt := λ A B k c r,
  match c r with
  | (Returns a, r') => k a r'
  | (Raises e, r') => (Raises e, r')
  end.

(** Evaluating an expression that may raise, inside a block. *)
Definition eval {A} (o : outcome A) : stmt A := λ r, (o, r).

(** [response[k] = v] *)
Definition setitem (k : string) (v : pyval) : stmt unit :=
  λ r, (Returns tt, <[k := v]> r).

(** Reading the variable [response]. *)
Definition get_response : stmt (gmap string pyval) := λ r, (Returns r, r).

(** [try: body  except C1: h1  except C2 as e: h2 ...]: the first clause
    whose class test accepts the exception handles it; with no such
    clause the exception goes on. *)
Definition except_clause : Type := (exn → bool) * (exn → stmt unit).

Definition try_except (body : stmt unit) (clauses : list except_clause)
  : stmt unit :=
  λ r, match body r with
       | (Returns a, r') => (Returns a, r')
       | (Raises e, r') =>
           match List.find (λ c : except_clause, c.1 e) clauses with
           | Some c => c.2 e r'
           | None => (Raises e, r')
           end
       end.

(** Running a handler body from its initial dict. *)
Definition run {A} (c : stmt A) (r : gmap string pyval) : outcome A := (c r).1.

(** ** The collaborators *)

(** The [db] handle.  [db_name] is what reading [db.name] ends in: a
    value, an [AttributeError] when the attribute is absent, or whatever
    else a property raises.  [db_list_collection_names] is what the call
    [db.list_collection_names()] ends in: the list of collection names, or
    an exception. *)
Record db_handle : Type := DbHandle {
  db_name : outcome pyval;
  db_list_collection_names : outcome (list string)
}.

(** One declared attribute of a Pydantic model, as [model_fields] holds
    it.  [fi_annotation] is [str(f.annotation)]; [fi_default] is
    [PUndefined] when no default value is declared; [fi_default_factory]
    names the factory when one is declared. *)
Record FieldInfo : Type := MkFieldInfo {
  fi_annotation : string;
  fi_default : pyval;
  fi_default_factory : option string;
  fi_description : option string
}.

(** A class object: [__name__], [__module__], the answer of
    [issubclass(obj, BaseModel)], and [model_fields] in declaration
    order. *)
Record pyclass : Type := MkClass {
  cls_name : string;
  cls_module : string;
  cls_is_BaseModel : bool;
  model_fields : list (string * FieldInfo)
}.

(** A member of a module is a class or something else (a function, a
    module, a constant). *)
Inductive pyobj : Type :=
| PyClass (c : pyclass)
| PyOther (repr : string).

(** A loaded module: [__name__] and what [inspect.getmembers] lists,
    pairs of the attribute name and the object bound to it. *)
Record py_module : Type := MkModule {
  mod_name : string;
  getmembers : list (string * pyobj)
}.

(** Everything outside [main.py] that the handlers read.
    [import_database_db] is what [from database import db] ends in: an
    exception, [None] or a handle.  [import_schemas] is what
    [importlib.import_module("schemas")] ends in. *)
Record world : Type := World {
  environ : gmap string string;
  import_database_db : outcome (option db_handle);
  import_schemas : outcome py_module
}.

(** [os.getenv(key)] and [os.getenv(key, default)] *)
Definition getenv (w : world) (key : string) : pyval :=
  match environ w !! key with
  | Some s => PStr s
  | None => PNone
  end.

Definition getenv_default (w : world) (key : string) (default : pyval) : pyval :=
  match environ w !! key with
  | Some s => PStr s
  | None => default
  end.

(** [hasattr(db, 'name')]: false on [AttributeError], any other
    exception goes on. *)
Definition hasattr_name (db : db_handle) : outcome bool :=
  match db_name db with
  | Returns _ => Returns true
  | Raises e => if isinstance_AttributeError e then Returns false else Raises e
  end.

(** ** The handlers *)

Definition read_root : outcome (gmap string pyval) :=
  Returns {[ "message" := PStr "Hello from FastAPI Backend!" ]}.

Definition hello : outcome (gmap string pyval) :=
  Returns {[ "message" := PStr "Hello from the backend API!" ]}.

Definition test_database_initial : gmap string pyval :=
  {[ "backend" := PStr "✅ Running";
     "database" := PStr "❌ Not Available";
     "database_url" := PNone;
     "database_name" := PNone;
     "connection_status" := PStr "Not Connected";
     "collections" := PList [] ]}.

Definition probe_collections (db : db_handle) : stmt unit :=
  try_except
    (collections ← eval (db_list_collection_names db);
     setitem "collections" (PList (PStr <$> take 10 collections));;
     setitem "database" (PStr "✅ Connected & Working"))
    [ (isinstance_Exception,
       λ e, setitem "database"
              (PStr ("⚠️  Connected but Error: " ++ str_prefix 50 (exn_str e)))) ].

Definition probe_database (w : world) : stmt unit :=
  try_except
    (db ← eval (import_database_db w);
     match db with
     | Some db =>
         setitem "database" (PStr "✅ Available");;
         setitem "database_url" (PStr "✅ Configured");;
         name ← (has ← eval (hasattr_name db);
                 if (has : bool) then eval (db_name db)
                 else mret (PStr "✅ Connected"));
         setitem "database_name" name;;
         setitem "connection_status" (PStr "Connected");;
         probe_collections db
     | None =>
         setitem "database" (PStr "⚠️  Available but not initialized")
     end)
    [ (isinstance_ImportError,
       λ _, setitem "database"
              (PStr "❌ Database module not found (run enable-database first)"));
      (isinstance_Exception,
       λ e, setitem "database"
              (PStr ("❌ Error: " ++ str_prefix 50 (exn_str e)))) ].

Definition test_database (w : world) : outcome (gmap string pyval) :=
  run (probe_database w;;
       setitem "database_url"
         (if truthy (getenv w "DATABASE_URL") then PStr "✅ Set" else PStr "❌ Not Set");;
       setitem "database_name"
         (if truthy (getenv w "DATABASE_NAME") then PStr "✅ Set" else PStr "❌ Not Set");;
       get_response)
      test_database_initial.

(** [name.lower()], on the ASCII letters a class name is written in. *)
Definition lower_ascii (c : Ascii.ascii) : Ascii.ascii :=
  let n := Ascii.nat_of_ascii c in
  if Nat.leb 65 n && Nat.leb n 90 then Ascii.ascii_of_nat (n + 32) else c.

Fixpoint lower (s : string) : string :=
  match s with
  | EmptyString => EmptyString
  | String c s' => String (lower_ascii c) (lower s')
  end.

(** [FieldInfo.is_required()] of Pydantic v2: no default value and no
    default factory. *)
Definition is_required (f : FieldInfo) : bool :=
  is_undefined (fi_default f) &&
  match fi_default_factory f with None => true | Some _ => false end.

(** [getattr(f, 'description', None)] *)
Definition getattr_description (f : FieldInfo) : pyval :=
  match fi_description f with
  | Some s => PStr s
  | None => PNone
  end.

(** The body of the inner loop: the dict appended for one field. *)
Definition field_entry (fname : string) (f : FieldInfo) : pyval :=
  let field_type := fi_annotation f in
  let required := is_required f in
  let default :=
    if required then PNone
    else (if is_not_none (fi_default f) then fi_default f else PNone) in
  let description :=
    if truthy (getattr_description f) then getattr_description f else PNone in
  PDict {[ "name" := PStr fname;
           "type" := PStr field_type;
           "required" := PBool required;
           "default" := default;
           "description" := description ]}.

(** [fields_info] after the inner loop over [model.model_fields.items()]. *)
Definition fields_info (model : pyclass) : list pyval :=
  (λ item : string * FieldInfo, field_entry item.1 item.2) <$> model_fields model.

(** The condition of the [if] in the outer loop. *)
Definition is_schema_class (schemas_module : py_module) (obj : pyobj) : bool :=
  match obj with
  | PyClass c => cls_is_BaseModel c && String.eqb (cls_module c) (mod_name schemas_module)
  | PyOther _ => false
  end.

(** The value stored in [definitions[name]]. *)
Definition schema_entry (name : string) (model : pyclass) : pyval :=
  PDict {[ "collection" := PStr (lower name);
           "title" := PStr name;
           "fields" := PList (fields_info model) ]}.

(** One turn of the outer loop. *)
Definition schema_step (schemas_module : py_module)
    (definitions : gmap string pyval) (member : string * pyobj)
  : gmap string pyval :=
  match member.2 with
  | PyClass model =>
      if is_schema_class schemas_module member.2
      then <[member.1 := schema_entry member.1 model]> definitions
      else definitions
  | PyOther _ => definitions
  end.

(** [definitions] after the outer loop. *)
Definition schema_definitions (schemas_module : py_module) : gmap string pyval :=
  foldl (schema_step schemas_module) ∅ (getmembers schemas_module).

Definition get_schema (w : world) : outcome (gmap string pyval) :=
  match import_schemas w with
  | Raises e =>
      if isinstance_Exception e
      then Returns {[ "error" := PStr ("Unable to import schemas: " ++ exn_str e) ]}
      else Raises e
  | Returns schemas_module =>
      Returns {[ "schemas" := PDict (schema_definitions schemas_module) ]}
  end.

(** ** The application: routes and status codes

    The four [@app.get] decorators.  A handler that returns gives status
    200 with its dict as the body; one that raises gives 500; a path with
    no route gives 404.  No handler declares a parameter, so nothing of
    the request but its path is handed on. *)

Record request : Type := Request {
  req_path : string;
  req_query : list (string * string);
  req_headers : list (string * string)
}.

Record http_response : Type := HttpResponse {
  status_code : Z;
  body : option (gmap string pyval)
}.

Definition app_routes : list (string * (world → outcome (gmap string pyval))) :=
  [ ("/", λ _, read_root);
    ("/api/hello", λ _, hello);
    ("/test", test_database);
    ("/schema", get_schema) ].

Definition respond (o : outcome (gmap string pyval)) : http_response :=
  match o with
  | Returns r => HttpResponse 200 (Some r)
  | Raises _ => HttpResponse 500 None
  end.

Definition serve_get (w : world) (req : request) : http_response :=
  match List.find (λ rt, String.eqb rt.1 (req_path req)) app_routes with
  | Some rt => respond (rt.2 w)
  | None => HttpResponse 404 None
  end.

(** ** The start-up block

    [int] applied to a [str] is the interpreter's; it is a parameter here,
    [int_of_str], returning the integer or raising [ValueError]. *)

Section Startup.
Variable int_of_str : string → outcome Z.

(** [int(x)] on the values [os.getenv] can hand to it. *)
Definition py_int (v : pyval) : outcome Z :=
  match v with
  | PInt z => Returns z
  | PBool b => Returns (if b then 1 else 0)%Z
  | PStr s => int_of_str s
  | _ => Raises (Exn TypeError "int() argument must be a string, a bytes-like object or a real number")
  end.

(** [port = int(os.getenv("PORT", 8000))] *)
Definition main_port (w : world) : outcome Z :=
  py_int (getenv_default w "PORT" (PInt 8000)).
End Startup.

(** An instance of [int_of_str] for examples: plain decimal digits, as a
    port number is written. *)
Definition digit_value (c : Ascii.ascii) : option Z :=
  let n := Ascii.nat_of_ascii c in
  if Nat.leb 48 n && Nat.leb n 57 then Some (Z.of_nat (n - 48)) else None.

Fixpoint decimal_digits (acc : Z) (s : string) : option Z :=
  match s with
  | EmptyString => Some acc
  | String c s' =>
      match digit_value c with
      | Some d => decimal_digits (10 * acc + d) s'
      | None => None
      end
  end.

Definition int_of_decimal (s : string) : outcome Z :=
  match s with
  | EmptyString => Raises (Exn ValueError "invalid literal for int() with base 10: ''")
  | _ =>
      match decimal_digits 0 s with
      | Some z => Returns z
      | None => Raises (Exn ValueError ("invalid literal for int() with base 10: '" ++ s ++ "'"))
      end
  end.

(** * Vocabulary of the statements

    Predicates and readers the theorems are phrased with, and sample
    worlds to run the handlers on. *)

(** [v[k]] when [v] is a dict. *)
Definition getitem (v : pyval) (k : string) : option pyval :=
  match v with
  | PDict d => d !! k
  | _ => None
  end.

(** [triple P c Q E]: from a dict satisfying [P], the statement [c] ends
    either normally, with a result and a dict in [Q], or with an
    exception and a dict in [E]. *)
Definition triple {A} (P : gmap string pyval → Prop) (c : stmt A)
    (Q : A → gmap string pyval → Prop) (E : exn → gmap string pyval → Prop) : Prop :=
  ∀ r, P r →
    match c r with
    | (Returns a, r') => Q a r'
    | (Raises e, r') => E e r'
    end.

(** The six keys of the dict literal that [response] starts as. *)
Definition test_keys : gset string :=
  {[ "backend"; "database"; "database_url"; "database_name";
     "connection_status"; "collections" ]}.

(** [collections] holds a list of at most ten elements. *)
Definition short_collections (r : gmap string pyval) : Prop :=
  ∃ l, r !! "collections" = Some (PList l) ∧ (List.length l ≤ 10)%nat.

(** The value of the conditional expressions after the [try] block:
    ["✅ Set" if os.getenv(key) else "❌ Not Set"]. *)
Definition env_flag (w : world) (key : string) : pyval :=
  if truthy (getenv w key) then PStr "✅ Set" else PStr "❌ Not Set".

(** A variable counts for the check when it is set to a non-empty
    string: [os.getenv] gives [None] for an unset variable, and both
    [None] and the empty string are false. *)
Definition env_nonempty (w : world) (key : string) : Prop :=
  ∃ s, environ w !! key = Some s ∧ s ≠ "".

(** What the clauses of the outer [try] write for an exception. *)
Definition outer_message (e : exn) : string :=
  if isinstance_ImportError e
  then "❌ Database module not found (run enable-database first)"
  else "❌ Error: " ++ str_prefix 50 (exn_str e).

(** The ways the collaborator can fail, each with the text the handler
    is to show for it: the import raises; the handle is [None]; reading
    [db.name] raises something other than [AttributeError]; the call of
    [list_collection_names] raises. *)
Inductive db_failure (w : world) : string → Prop :=
| fail_import e :
    import_database_db w = Raises e →
    db_failure w (outer_message e)
| fail_uninitialized :
    import_database_db w = Returns None →
    db_failure w "⚠️  Available but not initialized"
| fail_name db e :
    import_database_db w = Returns (Some db) →
    hasattr_name db = Raises e →
    db_failure w (outer_message e)
| fail_list_collection_names db has e :
    import_database_db w = Returns (Some db) →
    hasattr_name db = Returns has →
    db_list_collection_names db = Raises e →
    db_failure w ("⚠️  Connected but Error: " ++ str_prefix 50 (exn_str e)).

(** ** Sample worlds *)

(** A handle with twelve collections, and one whose server is down. *)
Definition db_working : db_handle :=
  DbHandle (Returns (PStr "appdb"))
           (Returns ["c01"; "c02"; "c03"; "c04"; "c05"; "c06";
                     "c07"; "c08"; "c09"; "c10"; "c11"; "c12"]).

Definition db_unreachable : db_handle :=
  DbHandle (Returns (PStr "appdb"))
           (Raises (Exn (OtherException "ServerSelectionTimeoutError")
                        "localhost:27017: [Errno 111] Connection refused")).

Definition no_module (name : string) : exn :=
  Exn ModuleNotFoundError ("No module named '" ++ name ++ "'").

Definition env_configured : gmap string string :=
  {[ "DATABASE_URL" := "mongodb://localhost:27017"; "DATABASE_NAME" := "appdb" ]}.

Definition world_bare : world :=
  World env_configured (Raises (no_module "database")) (Raises (no_module "schemas")).

Definition world_working : world :=
  World env_configured (Returns (Some db_working)) (Raises (no_module "schemas")).

Definition world_unreachable : world :=
  World env_configured (Returns (Some db_unreachable)) (Raises (no_module "schemas")).

(** [DATABASE_URL=] in the environment: set, to the empty string. *)
Definition world_empty_url : world :=
  World {[ "DATABASE_URL" := ""; "DATABASE_NAME" := "appdb" ]}
        (Returns (Some db_working)) (Raises (no_module "schemas")).

Definition world_port_8080 : world :=
  World {[ "PORT" := "8080" ]} (Returns None) (Raises (no_module "schemas")).

(** A field declares a default when it has a default value or a default
    factory. *)
Definition declares_default (f : FieldInfo) : Prop :=
  fi_default f ≠ PUndefined ∨ is_Some (fi_default_factory f).

(** A [schemas] module: [User] with a required field, a field with a
    default value and a field with a default factory; the class is bound
    a second time as [Account]; [BaseModel] is imported into the module,
    and [Helper] is a class of the module that is no model. *)
Definition User_class : pyclass :=
  MkClass "User" "schemas" true
    [ ("name", MkFieldInfo "<class 'str'>" PUndefined None (Some "Full name"));
      ("age", MkFieldInfo "typing.Optional[int]" PNone None None);
      ("tags", MkFieldInfo "typing.List[str]" PUndefined (Some "list") None) ].

Definition BaseModel_class : pyclass := MkClass "BaseModel" "pydantic.main" true [].

Definition Helper_class : pyclass := MkClass "Helper" "schemas" false [].

Definition schemas_plain : py_module :=
  MkModule "schemas"
    [ ("BaseModel", PyClass BaseModel_class);
      ("Helper", PyClass Helper_class);
      ("User", PyClass User_class);
      ("__name__", PyOther "'schemas'") ].

Definition schemas_with_alias : py_module :=
  MkModule "schemas"
    [ ("Account", PyClass User_class);
      ("BaseModel", PyClass BaseModel_class);
      ("Helper", PyClass Helper_class);
      ("User", PyClass User_class);
      ("__name__", PyOther "'schemas'") ].

Definition world_schemas : world :=
  World ∅ (Raises (no_module "database")) (Returns schemas_plain).

Definition world_schemas_alias : world :=
  World ∅ (Raises (no_module "database")) (Returns schemas_with_alias).

(** ** States of the handle *)

(** The handle is there and [db.name] can be read or is absent: the
    statements up to [connection_status] run. *)
Definition handle_readable (w : world) : Prop :=
  ∃ db has, import_database_db w = Returns (Some db) ∧ hasattr_name db = Returns has.

(** The handle is there, [db.name] can be read or is absent, and the
    handle lists [names]. *)
Definition handle_lists (w : world) (names : list string) : Prop :=
  ∃ db has, import_database_db w = Returns (Some db) ∧
            hasattr_name db = Returns has ∧
            db_list_collection_names db = Returns names.


(** More sample worlds: a failing import that is no [ImportError], and
    the same handle as [db_working] without a [name] attribute. *)
Definition world_broken_module : world :=
  World env_configured
        (Raises (Exn (OtherException "KeyError") "'MONGO_URI'"))
        (Raises (no_module "schemas")).

Definition db_nameless : db_handle :=
  DbHandle (Raises (Exn AttributeError "'Database' object has no attribute 'name'"))
           (db_list_collection_names db_working).

Definition world_nameless : world :=
  World env_configured (Returns (Some db_nameless)) (Raises (no_module "schemas")).

Definition world_other_values : world :=
  World {[ "DATABASE_URL" := "x"; "DATABASE_NAME" := "y"; "PORT" := "9000" ]}
        (Returns (Some db_working)) (Returns schemas_plain).

(** * Verification *)

(** ** Rules for statements *)

Lemma triple_ret {A} (a : A) (Q : A → gmap string pyval → Prop) E :
  triple (Q a) (mret a) Q E.
Proof. intros r Hr. exact Hr. Qed.

Lemma triple_bind {A B} P (c : stmt A) (k : A → stmt B) Q R E :
  triple P c Q E →
  (∀ a, triple (Q a) (k a) R E) →
  triple P (c ≫= k) R E.
Proof.
  intros Hc Hk r Hr. specialize (Hc r Hr).
  unfold mbind, stmt_bind.
  destruct (c r) as [[a|e] r']; [by apply Hk | done].
Qed.

(** A statement that raises nothing fits any exceptional postcondition. *)
Lemma triple_no_raise {A} P (c : stmt A) Q E :
  triple P c Q (λ _ _, False) → triple P c Q E.
Proof.
  intros Hc r Hr. specialize (Hc r Hr).
  by destruct (c r) as [[a|e] r'].
Qed.

(** An exception of the body is handed to the first clause that accepts
    it, on the dict as the body left it. *)
Lemma triple_try_except P body clauses (Q : unit → gmap string pyval → Prop) E1 E :
  triple P body Q E1 →
  (∀ e, match List.find (λ c : except_clause, c.1 e) clauses with
        | Some c => triple (E1 e) (c.2 e) Q E
        | None => ∀ r, E1 e r → E e r
        end) →
  triple P (try_except body clauses) Q E.
Proof.
  intros Hb Hh r Hr. specialize (Hb r Hr). unfold try_except.
  destruct (body r) as [[[]|e] r']; [done|].
  specialize (Hh e).
  destruct (List.find _ clauses) as [c|]; [by apply Hh | by apply Hh].
Qed.

(** [except Exception] accepts every exception of the model. *)
Lemma isinstance_Exception_true e : isinstance_Exception e = true.
Proof. by destruct e as [[] ?]. Qed.

(** An assignment under a property it establishes, and an evaluation,
    which leaves the dict alone. *)
Lemma triple_assign k v (P Q : gmap string pyval → Prop) E :
  (∀ r, P r → Q (<[k := v]> r)) →
  triple P (setitem k v) (λ _, Q) E.
Proof. intros H r Hr. by apply H. Qed.

Lemma triple_eval_keep {A} (o : outcome A) (P : gmap string pyval → Prop) :
  triple P (eval o) (λ _, P) (λ _, P).
Proof. intros r Hr. unfold eval. by destruct o. Qed.

(** ** Invariants of the dict in [test_database]

    A property of [response] that every assignment of the handler keeps
    holds at the end, and no exception leaves the [try] blocks.  The four
    scalar keys receive strings (and, for [database_name], whatever
    [db.name] holds); [collections] receives a list cut to ten names. *)

Section Invariant.
Variable I : gmap string pyval → Prop.
Hypothesis I_database : ∀ v r, I r → I (<["database" := v]> r).
Hypothesis I_database_url : ∀ v r, I r → I (<["database_url" := v]> r).
Hypothesis I_database_name : ∀ v r, I r → I (<["database_name" := v]> r).
Hypothesis I_connection_status : ∀ v r, I r → I (<["connection_status" := v]> r).
Hypothesis I_collections :
  ∀ (names : list string) r, I r → I (<["collections" := PList (PStr <$> take 10 names)]> r).

Lemma probe_collections_invariant db :
  triple I (probe_collections db) (λ _, I) (λ _ _, False).
Proof.
  unfold probe_collections.
  eapply triple_try_except with (E1 := λ _, I).
  - eapply triple_bind; [apply triple_eval_keep|].
    intros names. eapply triple_bind.
    + apply triple_assign with (Q := I). auto.
    + intros []. apply triple_assign. auto.
  - intros e. cbn [List.find fst snd]. rewrite isinstance_Exception_true.
    apply triple_assign. auto.
Qed.

Lemma probe_database_invariant w :
  triple I (probe_database w) (λ _, I) (λ _ _, False).
Proof.
  unfold probe_database.
  eapply triple_try_except with (E1 := λ _, I).
  - eapply triple_bind; [apply triple_eval_keep|].
    intros [db|]; [|apply triple_assign; auto].
    eapply triple_bind; [apply triple_assign with (Q := I); auto|]. intros [].
    eapply triple_bind; [apply triple_assign with (Q := I); auto|]. intros [].
    eapply triple_bind with (Q := λ _, I).
    { eapply triple_bind; [apply triple_eval_keep|].
      intros [|]; [apply triple_eval_keep | apply (triple_ret _ (λ _, I))]. }
    intros name.
    eapply triple_bind; [apply triple_assign with (Q := I); auto|]. intros [].
    eapply triple_bind; [apply triple_assign with (Q := I); auto|]. intros [].
    apply triple_no_raise, probe_collections_invariant.
  - intros e. cbn [List.find fst snd].
    destruct (isinstance_ImportError e); [apply triple_assign; auto|].
    rewrite isinstance_Exception_true. apply triple_assign; auto.
Qed.

(** The handler returns, and its result keeps the invariant. *)
Lemma test_database_invariant w :
  I test_database_initial → ∃ r, test_database w = Returns r ∧ I r.
Proof.
  intros H0. unfold test_database, run.
  pose proof (probe_database_invariant w _ H0) as Hp.
  unfold mbind at 1, stmt_bind at 1.
  destruct (probe_database w test_database_initial) as [[[]|e] r']; [|done].
  cbv [mbind stmt_bind setitem get_response fst].
  eexists; split; [reflexivity|]. auto.
Qed.
End Invariant.

(** ** [GET /test]: what the handler returns *)

Lemma dom_test_database_initial : dom test_database_initial = test_keys.
Proof.
  unfold test_database_initial, test_keys.
  rewrite !dom_insert_L, dom_singleton_L.
  apply set_eq. intros k. rewrite !elem_of_union, !elem_of_singleton. tauto.
Qed.

Lemma dom_insert_test_key k (v : pyval) (r : gmap string pyval) :
  k ∈ test_keys → dom r = test_keys → dom (<[k := v]> r) = test_keys.
Proof.
  intros Hk Hr. rewrite dom_insert_L, Hr.
  apply set_eq. intros x. rewrite elem_of_union, elem_of_singleton.
  split; [by intros [->|] | auto].
Qed.

(** The handler returns in every world, with exactly the six keys. *)
Lemma test_database_dom (w : world) :
  ∃ r, test_database w = Returns r ∧ dom r = test_keys.
Proof.
  apply (test_database_invariant (λ r, dom r = test_keys)).
  1-5: intros; apply dom_insert_test_key; [|done].
  1-5: unfold test_keys; rewrite !elem_of_union, !elem_of_singleton; tauto.
  apply dom_test_database_initial.
Qed.

Lemma short_collections_other k (v : pyval) (r : gmap string pyval) :
  k ≠ "collections" → short_collections r → short_collections (<[k := v]> r).
Proof.
  intros Hk (l & Hl & Hlen). exists l. by rewrite lookup_insert_ne.
Qed.

Lemma short_collections_assign (names : list string) (r : gmap string pyval) :
  short_collections (<["collections" := PList (PStr <$> take 10 names)]> r).
Proof.
  eexists. rewrite lookup_insert_eq. split; [reflexivity|].
  rewrite length_fmap, length_take. lia.
Qed.

Lemma test_database_unfold (w : world) :
  ∃ r', probe_database w test_database_initial = (Returns tt, r') ∧
        test_database w =
          Returns (<["database_name" := env_flag w "DATABASE_NAME"]>
                     (<["database_url" := env_flag w "DATABASE_URL"]> r')).
Proof.
  pose proof (probe_database_invariant (λ _, True)) as Hp.
  specialize (Hp ltac:(done) ltac:(done) ltac:(done) ltac:(done) ltac:(done)
                 w test_database_initial I).
  unfold test_database, run. unfold mbind at 1, stmt_bind at 1.
  destruct (probe_database w test_database_initial) as [[[]|e] r']; [|done].
  exists r'. split; [reflexivity|]. reflexivity.
Qed.

Lemma test_database_env_flags (w : world) (r : gmap string pyval) :
  test_database w = Returns r →
  r !! "database_url" = Some (env_flag w "DATABASE_URL") ∧
  r !! "database_name" = Some (env_flag w "DATABASE_NAME").
Proof.
  destruct (test_database_unfold w) as (r' & _ & ->).
  intros [= <-]. split.
  - rewrite lookup_insert_ne by done. apply lookup_insert_eq.
  - apply lookup_insert_eq.
Qed.

Lemma env_flag_set (w : world) (key : string) :
  env_flag w key = PStr "✅ Set" ↔ env_nonempty w key.
Proof.
  unfold env_flag, getenv, env_nonempty.
  destruct (environ w !! key) as [s|]; simpl.
  - destruct (String.eqb_spec s ""); simpl; split.
    + done.
    + intros (s' & [= <-] & Hne). done.
    + intros _. by exists s.
    + done.
  - split; [done|]. by intros (s & ? & _).
Qed.

Lemma env_flag_not_set (w : world) (key : string) :
  env_flag w key = PStr "❌ Not Set" ↔ ¬ env_nonempty w key.
Proof.
  rewrite <- env_flag_set. unfold env_flag.
  destruct (truthy (getenv w key)); split; done.
Qed.

(** ** Failures of the database collaborator *)

Ltac step_stmt :=
  cbv beta iota zeta delta
    [probe_database probe_collections try_except mbind stmt_bind mret stmt_ret
     setitem eval get_response run List.find fst snd].

Lemma outer_clause (e : exn) (r : gmap string pyval) :
  match List.find (λ c : except_clause, c.1 e)
          [ (isinstance_ImportError,
             λ _, setitem "database"
                    (PStr "❌ Database module not found (run enable-database first)"));
            (isinstance_Exception,
             λ e, setitem "database"
                    (PStr ("❌ Error: " ++ str_prefix 50 (exn_str e)))) ] with
  | Some c => c.2 e r
  | None => (Raises e, r)
  end = (Returns tt, <["database" := PStr (outer_message e)]> r).
Proof.
  unfold outer_message. cbn [List.find fst snd].
  destruct (isinstance_ImportError e); [done|].
  by rewrite isinstance_Exception_true.
Qed.

Lemma probe_database_failure (w : world) (msg : string) (r0 : gmap string pyval) :
  db_failure w msg →
  ∃ r', probe_database w r0 = (Returns tt, r') ∧ r' !! "database" = Some (PStr msg).
Proof.
  intros [e He | He | db e He Hn | db has e He Hn Hl].
  - eexists. split; [|apply lookup_insert_eq].
    unfold probe_database, try_except, mbind, stmt_bind, eval.
    rewrite He. apply outer_clause.
  - eexists. split; [|apply lookup_insert_eq].
    step_stmt. by rewrite He.
  - eexists. split; [|apply lookup_insert_eq].
    unfold probe_database, try_except, mbind, stmt_bind, eval, setitem.
    rewrite He, Hn. apply outer_clause.
  - destruct has.
    + assert (∃ v, db_name db = Returns v) as [v Hv].
      { unfold hasattr_name in Hn. destruct (db_name db) as [v|e']; [by eexists|].
        by destruct (isinstance_AttributeError e'). }
      eexists. split; [|apply lookup_insert_eq].
      step_stmt. rewrite He, Hn, Hv, Hl, isinstance_Exception_true. reflexivity.
    + eexists. split; [|apply lookup_insert_eq].
      step_stmt. rewrite He, Hn, Hl, isinstance_Exception_true. reflexivity.
Qed.

(** The failures above and the working handle are all the states there
    are. *)
Lemma db_failure_or_working (w : world) :
  (∃ msg, db_failure w msg) ∨
  (∃ db has names,
     import_database_db w = Returns (Some db) ∧
     hasattr_name db = Returns has ∧
     db_list_collection_names db = Returns names).
Proof.
  destruct (import_database_db w) as [[db|]|e] eqn:He.
  - destruct (hasattr_name db) as [has|e] eqn:Hn.
    + destruct (db_list_collection_names db) as [names|e] eqn:Hl.
      * right. by exists db, has, names.
      * left. eexists. by eapply fail_list_collection_names.
    + left. eexists. by eapply fail_name.
  - left. eexists. by apply fail_uninitialized.
  - left. eexists. by apply fail_import.
Qed.

(** With a working handle the [try] block runs to its end. *)
Lemma probe_database_working (w : world) (db : db_handle) (has : bool)
    (names : list string) (r0 : gmap string pyval) :
  import_database_db w = Returns (Some db) →
  hasattr_name db = Returns has →
  db_list_collection_names db = Returns names →
  ∃ r', probe_database w r0 = (Returns tt, r') ∧
        r' !! "database" = Some (PStr "✅ Connected & Working") ∧
        r' !! "collections" = Some (PList (PStr <$> take 10 names)) ∧
        r' !! "connection_status" = Some (PStr "Connected") ∧
        r' !! "database_url" = Some (PStr "✅ Configured").
Proof.
  intros He Hn Hl.
  assert (∃ v, (if has then db_name db else Returns (PStr "✅ Connected")) = Returns v)
    as [v Hv].
  { unfold hasattr_name in Hn. destruct has; [|by eexists].
    destruct (db_name db) as [v|e']; [by eexists|].
    by destruct (isinstance_AttributeError e'). }
  exists (<["database" := PStr "✅ Connected & Working"]>
            (<["collections" := PList (PStr <$> take 10 names)]>
               (<["connection_status" := PStr "Connected"]>
                  (<["database_name" := v]>
                     (<["database_url" := PStr "✅ Configured"]>
                        (<["database" := PStr "✅ Available"]> r0)))))).
  split.
  - step_stmt. rewrite He, Hn, Hl.
    destruct has; [by rewrite Hv | by injection Hv as <-].
  - by simplify_map_eq.
Qed.

(** ** Runs on the sample worlds *)

Example test_database_working_response :
  test_database world_working
    = Returns {[ "backend" := PStr "✅ Running";
                 "database" := PStr "✅ Connected & Working";
                 "database_url" := PStr "✅ Set";
                 "database_name" := PStr "✅ Set";
                 "connection_status" := PStr "Connected";
                 "collections" :=
                   PList [PStr "c01"; PStr "c02"; PStr "c03"; PStr "c04"; PStr "c05";
                          PStr "c06"; PStr "c07"; PStr "c08"; PStr "c09"; PStr "c10"] ]}.
Proof. vm_compute. reflexivity. Qed.

Example test_database_bare_response :
  test_database world_bare
    = Returns {[ "backend" := PStr "✅ Running";
                 "database" :=
                   PStr "❌ Database module not found (run enable-database first)";
                 "database_url" := PStr "✅ Set";
                 "database_name" := PStr "✅ Set";
                 "connection_status" := PStr "Not Connected";
                 "collections" := PList [] ]}.
Proof. vm_compute. reflexivity. Qed.

(** The [try] block leaves [database_url] at "✅ Configured" and
    [database_name] at [db.name]; the assignments after it replace
    both. *)
Example test_database_overwrites :
  (probe_database world_empty_url test_database_initial).2 !! "database_url"
    = Some (PStr "✅ Configured") ∧
  (probe_database world_empty_url test_database_initial).2 !! "database_name"
    = Some (PStr "appdb") ∧
  ∃ r, test_database world_empty_url = Returns r ∧
       r !! "database_url" = Some (PStr "❌ Not Set") ∧
       r !! "database_name" = Some (PStr "✅ Set").
Proof.
  split; [vm_compute; reflexivity|]. split; [vm_compute; reflexivity|].
  eexists. split; [reflexivity|]. split; vm_compute; reflexivity.
Qed.

Example main_port_not_a_number :
  main_port int_of_decimal
    (World {[ "PORT" := "http" ]} (Returns None) (Raises (no_module "schemas")))
    = Raises (Exn ValueError "invalid literal for int() with base 10: 'http'").
Proof. reflexivity. Qed.

(** ** The routes *)

Lemma serve_get_test (w : world) (query headers : list (string * string)) :
  serve_get w (Request "/test" query headers) = respond (test_database w).
Proof. reflexivity. Qed.

Lemma serve_get_schema (w : world) (query headers : list (string * string)) :
  serve_get w (Request "/schema" query headers) = respond (get_schema w).
Proof. reflexivity. Qed.

(** ** The claims on [GET /], [GET /api/hello] and [GET /test] *)

(** C5: [GET /] and [GET /api/hello] answer 200 with their fixed message,
    whatever the environment, the collaborators and the rest of the
    request are. *)
Theorem greetings_fixed (w : world) (query headers : list (string * string)) :
  serve_get w (Request "/" query headers)
    = HttpResponse 200 (Some {[ "message" := PStr "Hello from FastAPI Backend!" ]}) ∧
  serve_get w (Request "/api/hello" query headers)
    = HttpResponse 200 (Some {[ "message" := PStr "Hello from the backend API!" ]}).
Proof. split; reflexivity. Qed.

(** C2: in every world (database module missing, handle [None], handle
    raising, handle working) [GET /test] returns, the status is 200, and
    the response holds the six keys [backend], [database],
    [database_url], [database_name], [connection_status] and
    [collections] (and no other). *)
Theorem test_database_six_keys (w : world) (query headers : list (string * string)) :
  ∃ r, test_database w = Returns r ∧
       serve_get w (Request "/test" query headers) = HttpResponse 200 (Some r) ∧
       dom r = test_keys ∧
       is_Some (r !! "backend") ∧ is_Some (r !! "database") ∧
       is_Some (r !! "database_url") ∧ is_Some (r !! "database_name") ∧
       is_Some (r !! "connection_status") ∧ is_Some (r !! "collections").
Proof.
  destruct (test_database_dom w) as (r & Hr & Hdom).
  exists r. rewrite serve_get_test, Hr. repeat split; try done.
  all: apply elem_of_dom; rewrite Hdom; unfold test_keys;
    rewrite !elem_of_union, !elem_of_singleton; tauto.
Qed.

(** C4: every failure of the database collaborator (the import raises,
    the handle is [None], reading [db.name] raises, listing the
    collections raises) is caught in the handler: [GET /test] returns with
    status 200 and the [database] entry is the text describing that
    failure. *)
Theorem database_failure_rendered (w : world) (msg : string) :
  db_failure w msg →
  ∃ r, test_database w = Returns r ∧
       respond (test_database w) = HttpResponse 200 (Some r) ∧
       r !! "database" = Some (PStr msg).
Proof.
  intros Hf.
  destruct (test_database_unfold w) as (r' & Hp & Ht).
  destruct (probe_database_failure w msg test_database_initial Hf) as (r'' & Hp' & Hmsg).
  rewrite Hp in Hp'. injection Hp' as <-.
  eexists. split; [exact Ht|]. rewrite Ht. split; [reflexivity|].
  by rewrite !lookup_insert_ne.
Qed.

Lemma database_failure_rendered_witness :
  ∃ r, test_database world_unreachable = Returns r ∧
       respond (test_database world_unreachable) = HttpResponse 200 (Some r) ∧
       r !! "database"
         = Some (PStr "⚠️  Connected but Error: localhost:27017: [Errno 111] Connection refused").
Proof.
  apply (database_failure_rendered world_unreachable).
  apply (fail_list_collection_names world_unreachable db_unreachable true
           (Exn (OtherException "ServerSelectionTimeoutError")
                "localhost:27017: [Errno 111] Connection refused"));
    reflexivity.
Defined.

(** C9: in every [GET /test] response [collections] is a list of at most
    ten elements, however many names the handle reports. *)
Theorem test_database_collections_at_most_ten (w : world) :
  ∃ r l, test_database w = Returns r ∧
         r !! "collections" = Some (PList l) ∧ (List.length l ≤ 10)%nat.
Proof.
  destruct (test_database_invariant short_collections) with (w := w)
    as (r & Hr & l & Hl & Hlen).
  1-4: intros; by apply short_collections_other.
  - intros. apply short_collections_assign.
  - exists []. split; [reflexivity | simpl; lia].
  - by exists r, l.
Qed.

(** C10: two runs of [GET /test] in worlds that agree on [DATABASE_URL]
    and [DATABASE_NAME], with any two states of the database
    collaborator, end with the same [database_url] and the same
    [database_name]. *)
Theorem test_database_env_only (w1 w2 : world) :
  environ w1 !! "DATABASE_URL" = environ w2 !! "DATABASE_URL" →
  environ w1 !! "DATABASE_NAME" = environ w2 !! "DATABASE_NAME" →
  ∃ r1 r2, test_database w1 = Returns r1 ∧ test_database w2 = Returns r2 ∧
           r1 !! "database_url" = r2 !! "database_url" ∧
           r1 !! "database_name" = r2 !! "database_name".
Proof.
  intros Hurl Hname.
  destruct (test_database_dom w1) as (r1 & Hr1 & _).
  destruct (test_database_dom w2) as (r2 & Hr2 & _).
  exists r1, r2. split; [done|]. split; [done|].
  destruct (test_database_env_flags w1 r1 Hr1) as [-> ->].
  destruct (test_database_env_flags w2 r2 Hr2) as [-> ->].
  unfold env_flag, getenv. by rewrite Hurl, Hname.
Qed.

Lemma test_database_env_only_witness :
  ∃ r1 r2, test_database world_bare = Returns r1 ∧
           test_database world_working = Returns r2 ∧
           r1 !! "database_url" = r2 !! "database_url" ∧
           r1 !! "database_name" = r2 !! "database_name".
Proof. apply (test_database_env_only world_bare world_working); reflexivity. Defined.

(** C6, as stated, fails: with [DATABASE_URL] set to the empty string
    the variable is set, and the response reports it as not set. *)
Lemma database_url_set_empty_reported_not_set :
  is_Some (environ world_empty_url !! "DATABASE_URL") ∧
  ∃ r, test_database world_empty_url = Returns r ∧
       r !! "database_url" = Some (PStr "❌ Not Set") ∧
       r !! "database_url" ≠ Some (PStr "✅ Set").
Proof.
  split; [by eexists|].
  destruct (test_database_dom world_empty_url) as (r & Hr & _).
  exists r. split; [done|].
  destruct (test_database_env_flags _ _ Hr) as [-> _].
  split; [reflexivity | discriminate].
Qed.

(** C6, amended: in the [GET /test] response [database_url] is "✅ Set"
    exactly when [DATABASE_URL] is set to a non-empty string and
    "❌ Not Set" otherwise, and likewise [database_name] for
    [DATABASE_NAME]; nothing else of the two values reaches the
    response. *)
Theorem test_database_env_flags_nonempty (w : world) :
  ∃ r, test_database w = Returns r ∧
       (r !! "database_url" = Some (PStr "✅ Set") ↔ env_nonempty w "DATABASE_URL") ∧
       (r !! "database_url" = Some (PStr "❌ Not Set") ↔ ¬ env_nonempty w "DATABASE_URL") ∧
       (r !! "database_name" = Some (PStr "✅ Set") ↔ env_nonempty w "DATABASE_NAME") ∧
       (r !! "database_name" = Some (PStr "❌ Not Set") ↔ ¬ env_nonempty w "DATABASE_NAME").
Proof.
  destruct (test_database_dom w) as (r & Hr & _).
  exists r. split; [done|].
  destruct (test_database_env_flags w r Hr) as [-> ->].
  rewrite <- !env_flag_not_set, <- !env_flag_set.
  repeat split; congruence.
Qed.

Lemma test_database_env_flags_nonempty_witness :
  ∃ r, test_database world_working = Returns r ∧
       r !! "database_url" = Some (PStr "✅ Set") ∧
       r !! "database_name" = Some (PStr "✅ Set").
Proof.
  destruct (test_database_env_flags_nonempty world_working)
    as (r & Hr & Hurl & _ & Hname & _).
  exists r. split; [exact Hr|]. split.
  - apply Hurl. exists "mongodb://localhost:27017". split; [reflexivity | discriminate].
  - apply Hname. exists "appdb". split; [reflexivity | discriminate].
Defined.

(** ** [GET /schema] when the import fails *)

(** C3: when importing [schemas] raises, [GET /schema] returns the dict
    with the single key [error] and a string under it; the exception does
    not leave the handler and the status is 200. *)
Theorem get_schema_import_error (w : world) (e : exn)
    (query headers : list (string * string)) :
  import_schemas w = Raises e →
  get_schema w = Returns {[ "error" := PStr ("Unable to import schemas: " ++ exn_str e) ]} ∧
  serve_get w (Request "/schema" query headers)
    = HttpResponse 200 (Some {[ "error" := PStr ("Unable to import schemas: " ++ exn_str e) ]}).
Proof.
  intros He.
  assert (get_schema w
          = Returns {[ "error" := PStr ("Unable to import schemas: " ++ exn_str e) ]}) as Hg.
  { unfold get_schema. by rewrite He, isinstance_Exception_true. }
  split; [exact Hg|]. by rewrite serve_get_schema, Hg.
Qed.

Lemma get_schema_import_error_witness :
  get_schema world_bare
    = Returns {[ "error" := PStr "Unable to import schemas: No module named 'schemas'" ]} ∧
  serve_get world_bare (Request "/schema" [] [])
    = HttpResponse 200
        (Some {[ "error" := PStr "Unable to import schemas: No module named 'schemas'" ]}).
Proof.
  apply (get_schema_import_error world_bare (no_module "schemas") [] []).
  reflexivity.
Defined.

(** ** The listening port *)

(** C7: the port handed to the server is [int] of the value of [PORT]
    when [PORT] is set, and 8000 when it is not. *)
Theorem main_port_from_environment (int_of_str : string → outcome Z) (w : world) :
  (environ w !! "PORT" = None → main_port int_of_str w = Returns 8000%Z) ∧
  (∀ s, environ w !! "PORT" = Some s → main_port int_of_str w = int_of_str s).
Proof.
  unfold main_port, getenv_default. split.
  - by intros ->.
  - by intros s ->.
Qed.

Lemma main_port_from_environment_witness :
  main_port int_of_decimal world_port_8080 = Returns 8080%Z ∧
  main_port int_of_decimal world_bare = Returns 8000%Z.
Proof.
  split.
  - apply (proj2 (main_port_from_environment int_of_decimal world_port_8080) "8080").
    reflexivity.
  - apply (proj1 (main_port_from_environment int_of_decimal world_bare)).
    reflexivity.
Defined.

(** ** [GET /schema]: the entries of [definitions] *)

Lemma is_undefined_true (v : pyval) : is_undefined v = true ↔ v = PUndefined.
Proof. by destruct v. Qed.

Lemma is_required_spec (f : FieldInfo) :
  is_required f = true ↔ ¬ declares_default f.
Proof.
  unfold is_required, declares_default.
  rewrite andb_true_iff, is_undefined_true.
  destruct (fi_default_factory f) as [g|]; split.
  - by intros [_ ?].
  - intros H. destruct H. right. by eexists.
  - intros [-> _] [?|[? ?]]; done.
  - intros H. split; [|done].
    destruct (fi_default f); try done; destruct H; by left.
Qed.

(** The loop adds nothing but entries of schema classes, each under the
    name of the member it was found as. *)
Lemma schema_fold_sound (m : py_module) (name : string) (entry : pyval)
    (members : list (string * pyobj)) (acc : gmap string pyval) :
  foldl (schema_step m) acc members !! name = Some entry →
  acc !! name = Some entry ∨
  ∃ model, (name, PyClass model) ∈ members ∧
           is_schema_class m (PyClass model) = true ∧
           entry = schema_entry name model.
Proof.
  revert acc. induction members as [|[n obj] members IH]; intros acc; cbn [foldl].
  - by left.
  - intros H. destruct (IH _ H) as [Hacc | (model & Hin & Hcls & ->)].
    + unfold schema_step in Hacc. cbn [fst snd] in Hacc.
      destruct obj as [model|repr]; [|by left].
      destruct (is_schema_class m (PyClass model)) eqn:Hcls; [|by left].
      destruct (decide (n = name)) as [->|Hne].
      * rewrite lookup_insert_eq in Hacc. injection Hacc as <-.
        right. exists model. split; [left | done].
      * rewrite lookup_insert_ne in Hacc by done. by left.
    + right. exists model. split; [by right | done].
Qed.

Lemma schema_definitions_sound (m : py_module) (name : string) (entry : pyval) :
  schema_definitions m !! name = Some entry →
  ∃ model, (name, PyClass model) ∈ getmembers m ∧
           is_schema_class m (PyClass model) = true ∧
           entry = schema_entry name model.
Proof.
  intros H. by destruct (schema_fold_sound _ _ _ _ _ H) as [?|?].
Qed.

(** Every schema class among the members gets an entry. *)
Lemma schema_fold_complete (m : py_module) (name : string) (model : pyclass)
    (members : list (string * pyobj)) (acc : gmap string pyval) :
  is_schema_class m (PyClass model) = true →
  is_Some (acc !! name) ∨ (name, PyClass model) ∈ members →
  is_Some (foldl (schema_step m) acc members !! name).
Proof.
  intros Hcls. revert acc.
  induction members as [|[n obj] members IH]; intros acc; cbn [foldl].
  - intros [?|Hin]; [done | by apply elem_of_nil in Hin].
  - intros [Hacc|Hin]; apply IH.
    + left. unfold schema_step. cbn [fst snd].
      destruct obj as [model'|]; [|done].
      destruct (is_schema_class m (PyClass model')); [|done].
      destruct (decide (n = name)) as [->|Hne].
      * rewrite lookup_insert_eq. by eexists.
      * by rewrite lookup_insert_ne.
    + apply elem_of_cons in Hin as [[= <- <-]|Hin]; [|by right].
      left. unfold schema_step. cbn [fst snd]. rewrite Hcls.
      rewrite lookup_insert_eq. by eexists.
Qed.

Lemma schema_definitions_complete (m : py_module) (name : string) (model : pyclass) :
  (name, PyClass model) ∈ getmembers m →
  is_schema_class m (PyClass model) = true →
  is_Some (schema_definitions m !! name).
Proof. intros Hin Hcls. apply (schema_fold_complete m name model); auto. Qed.

Lemma schema_entry_items (name : string) (model : pyclass) :
  getitem (schema_entry name model) "collection" = Some (PStr (lower name)) ∧
  getitem (schema_entry name model) "title" = Some (PStr name) ∧
  getitem (schema_entry name model) "fields" = Some (PList (fields_info model)).
Proof. repeat split. Qed.

Lemma field_entry_items (fname : string) (f : FieldInfo) :
  getitem (field_entry fname f) "name" = Some (PStr fname) ∧
  getitem (field_entry fname f) "type" = Some (PStr (fi_annotation f)) ∧
  getitem (field_entry fname f) "required" = Some (PBool (is_required f)).
Proof. repeat split. Qed.

(** C1: for every model class exposed in the [GET /schema] response, the
    [fields] list is as long as [model_fields] of the class, field by
    field in the same order, and the [required] flag of a field is true
    exactly when the field declares no default. *)
Theorem get_schema_fields (w : world) (schemas_module : py_module) :
  import_schemas w = Returns schemas_module →
  ∃ definitions,
    get_schema w = Returns {[ "schemas" := PDict definitions ]} ∧
    ∀ name entry, definitions !! name = Some entry →
      ∃ model fields,
        (name, PyClass model) ∈ getmembers schemas_module ∧
        is_schema_class schemas_module (PyClass model) = true ∧
        getitem entry "fields" = Some (PList fields) ∧
        List.length fields = List.length (model_fields model) ∧
        ∀ i fname f, model_fields model !! i = Some (fname, f) →
          ∃ fd required,
            fields !! i = Some fd ∧
            getitem fd "name" = Some (PStr fname) ∧
            getitem fd "required" = Some (PBool required) ∧
            (required = true ↔ ¬ declares_default f).
Proof.
  intros Himp. exists (schema_definitions schemas_module).
  split; [unfold get_schema; by rewrite Himp|].
  intros name entry Hentry.
  apply schema_definitions_sound in Hentry as (model & Hin & Hcls & ->).
  exists model, (fields_info model).
  split; [done|]. split; [done|]. split; [apply schema_entry_items|].
  unfold fields_info. split; [apply length_fmap|].
  intros i fname f Hi.
  exists (field_entry fname f), (is_required f).
  rewrite list_lookup_fmap, Hi. split; [done|].
  split; [apply field_entry_items|]. split; [apply field_entry_items|].
  apply is_required_spec.
Qed.

Lemma get_schema_fields_witness :
  ∃ definitions,
    get_schema world_schemas = Returns {[ "schemas" := PDict definitions ]} ∧
    ∀ name entry, definitions !! name = Some entry →
      ∃ model fields,
        (name, PyClass model) ∈ getmembers schemas_plain ∧
        is_schema_class schemas_plain (PyClass model) = true ∧
        getitem entry "fields" = Some (PList fields) ∧
        List.length fields = List.length (model_fields model) ∧
        ∀ i fname f, model_fields model !! i = Some (fname, f) →
          ∃ fd required,
            fields !! i = Some fd ∧
            getitem fd "name" = Some (PStr fname) ∧
            getitem fd "required" = Some (PBool required) ∧
            (required = true ↔ ¬ declares_default f).
Proof. apply (get_schema_fields world_schemas schemas_plain). reflexivity. Defined.

(** The entry of [User] in the sample module: three fields, of which only
    [name] is required. *)
Example get_schema_User_fields :
  ∃ entry,
    schema_definitions schemas_plain !! "User" = Some entry ∧
    (λ fd, getitem fd "required") <$> fields_info User_class
      = [Some (PBool true); Some (PBool false); Some (PBool false)] ∧
    getitem entry "fields" = Some (PList (fields_info User_class)).
Proof. eexists. split; [vm_compute; reflexivity|]. split; reflexivity. Qed.


(** C8, at a module that binds [User] a second time as [Account]: the
    response has an entry [Account] for the class [User], whose [title] is
    "Account" and whose [collection] is "account", not the name of the
    class and its lower-case form. *)
Theorem get_schema_alias_entry :
  ∃ definitions entry,
    get_schema world_schemas_alias = Returns {[ "schemas" := PDict definitions ]} ∧
    definitions !! "Account" = Some entry ∧
    entry = schema_entry "Account" User_class ∧
    getitem entry "title" = Some (PStr "Account") ∧
    getitem entry "collection" = Some (PStr "account") ∧
    getitem entry "title" ≠ Some (PStr (cls_name User_class)) ∧
    getitem entry "collection" ≠ Some (PStr (lower (cls_name User_class))).
Proof.
  exists (schema_definitions schemas_with_alias), (schema_entry "Account" User_class).
  split; [reflexivity|]. split; [vm_compute; reflexivity|]. split; [reflexivity|].
  split; [reflexivity|]. split; [reflexivity|]. split; discriminate.
Qed.

(** * Further properties of the handlers *)

(** ** The dict after the [try] block, state by state *)

Lemma db_name_of_hasattr (db : db_handle) (has : bool) :
  hasattr_name db = Returns has →
  ∃ v, (if has then db_name db else Returns (PStr "✅ Connected")) = Returns v.
Proof.
  unfold hasattr_name. intros Hn. destruct has; [|by eexists].
  destruct (db_name db) as [v|e]; [by eexists|].
  by destruct (isinstance_AttributeError e).
Qed.

Lemma probe_database_cases (w : world) (r0 : gmap string pyval) :
  ∃ r', probe_database w r0 = (Returns tt, r') ∧
    ((∃ e, import_database_db w = Raises e ∧
           r' = <["database" := PStr (outer_message e)]> r0) ∨
     (import_database_db w = Returns None ∧
      r' = <["database" := PStr "⚠️  Available but not initialized"]> r0) ∨
     (∃ db e, import_database_db w = Returns (Some db) ∧
              hasattr_name db = Raises e ∧
              r' = <["database" := PStr (outer_message e)]>
                     (<["database_url" := PStr "✅ Configured"]>
                        (<["database" := PStr "✅ Available"]> r0))) ∨
     (∃ db has v e, import_database_db w = Returns (Some db) ∧
                    hasattr_name db = Returns has ∧
                    db_list_collection_names db = Raises e ∧
                    r' = <["database" :=
                             PStr ("⚠️  Connected but Error: " ++ str_prefix 50 (exn_str e))]>
                           (<["connection_status" := PStr "Connected"]>
                              (<["database_name" := v]>
                                 (<["database_url" := PStr "✅ Configured"]>
                                    (<["database" := PStr "✅ Available"]> r0))))) ∨
     (∃ db has v names, import_database_db w = Returns (Some db) ∧
                        hasattr_name db = Returns has ∧
                        db_list_collection_names db = Returns names ∧
                        r' = <["database" := PStr "✅ Connected & Working"]>
                               (<["collections" := PList (PStr <$> take 10 names)]>
                                  (<["connection_status" := PStr "Connected"]>
                                     (<["database_name" := v]>
                                        (<["database_url" := PStr "✅ Configured"]>
                                           (<["database" := PStr "✅ Available"]> r0))))))).
Proof.
  destruct (import_database_db w) as [[db|]|e] eqn:He.
  - destruct (hasattr_name db) as [has|e] eqn:Hn.
    + destruct (db_name_of_hasattr db has Hn) as [v Hv].
      destruct (db_list_collection_names db) as [names|e] eqn:Hl.
      * eexists. split; [|do 4 right; exists db, has, v, names; done].
        step_stmt. rewrite He, Hn, Hl.
        destruct has; [by rewrite Hv | by injection Hv as <-].
      * eexists. split; [|do 3 right; left; exists db, has, v, e; done].
        step_stmt. rewrite He, Hn, Hl, isinstance_Exception_true.
        destruct has; [by rewrite Hv | by injection Hv as <-].
    + eexists. split; [|do 2 right; left; exists db, e; done].
      unfold probe_database, try_except, mbind, stmt_bind, eval, setitem.
      rewrite He, Hn. apply outer_clause.
  - eexists. split; [|right; left; done].
    step_stmt. by rewrite He.
  - eexists. split; [|left; exists e; done].
    unfold probe_database, try_except, mbind, stmt_bind, eval.
    rewrite He. apply outer_clause.
Qed.

Lemma test_database_cases (w : world) :
  ∃ r', test_database w =
          Returns (<["database_name" := env_flag w "DATABASE_NAME"]>
                     (<["database_url" := env_flag w "DATABASE_URL"]> r')) ∧
    ((∃ e, import_database_db w = Raises e ∧
           r' = <["database" := PStr (outer_message e)]> test_database_initial) ∨
     (import_database_db w = Returns None ∧
      r' = <["database" := PStr "⚠️  Available but not initialized"]>
             test_database_initial) ∨
     (∃ db e, import_database_db w = Returns (Some db) ∧
              hasattr_name db = Raises e ∧
              r' = <["database" := PStr (outer_message e)]>
                     (<["database_url" := PStr "✅ Configured"]>
                        (<["database" := PStr "✅ Available"]> test_database_initial))) ∨
     (∃ db has v e, import_database_db w = Returns (Some db) ∧
                    hasattr_name db = Returns has ∧
                    db_list_collection_names db = Raises e ∧
                    r' = <["database" :=
                             PStr ("⚠️  Connected but Error: " ++ str_prefix 50 (exn_str e))]>
                           (<["connection_status" := PStr "Connected"]>
                              (<["database_name" := v]>
                                 (<["database_url" := PStr "✅ Configured"]>
                                    (<["database" := PStr "✅ Available"]>
                                       test_database_initial))))) ∨
     (∃ db has v names, import_database_db w = Returns (Some db) ∧
                        hasattr_name db = Returns has ∧
                        db_list_collection_names db = Returns names ∧
                        r' = <["database" := PStr "✅ Connected & Working"]>
                               (<["collections" := PList (PStr <$> take 10 names)]>
                                  (<["connection_status" := PStr "Connected"]>
                                     (<["database_name" := v]>
                                        (<["database_url" := PStr "✅ Configured"]>
                                           (<["database" := PStr "✅ Available"]>
                                              test_database_initial))))))).
Proof.
  destruct (test_database_unfold w) as (r' & Hp & Ht).
  destruct (probe_database_cases w test_database_initial) as (r'' & Hp' & Hcases).
  rewrite Hp in Hp'. injection Hp' as <-. by exists r'.
Qed.

(** Deciding a lookup in a dict built from assignments on the literal. *)
Ltac dict_lookup :=
  unfold test_database_initial;
  repeat first
    [ rewrite lookup_insert_eq
    | rewrite lookup_insert_ne by discriminate
    | rewrite lookup_singleton_eq
    | rewrite lookup_singleton_ne by discriminate ].

(** Two dicts over the six keys are equal when they agree key by key. *)
Ltac dict_eq :=
  unfold test_database_initial;
  apply map_eq; intros k;
  rewrite ?lookup_insert, ?lookup_singleton;
  repeat case_decide; simplify_eq; reflexivity.

(** ** The shape of the [GET /test] response *)

(** X1: the [GET /test] response is always a dict of exactly the six
    keys in which [backend] is "✅ Running", [database] and
    [connection_status] are strings, [database_url] and [database_name]
    are the two environment flags and [collections] is a list of strings:
    no value is left at [None], and [db.name] is not among the values. *)
Theorem test_database_shape (w : world) :
  ∃ (database connection_status : string) (names : list string),
    test_database w =
      Returns {[ "backend" := PStr "✅ Running";
                 "database" := PStr database;
                 "database_url" := env_flag w "DATABASE_URL";
                 "database_name" := env_flag w "DATABASE_NAME";
                 "connection_status" := PStr connection_status;
                 "collections" := PList (PStr <$> names) ]}.
Proof.
  destruct (test_database_cases w) as (r' & -> & Hcases).
  destruct Hcases as
    [(e & _ & ->) | [(_ & ->) | [(db & e & _ & _ & ->) |
     [(db & has & v & e & _ & _ & _ & ->) | (db & has & v & names & _ & _ & _ & ->)]]]].
  - exists (outer_message e), "Not Connected", []. apply (f_equal Returns). dict_eq.
  - exists "⚠️  Available but not initialized", "Not Connected", []. apply (f_equal Returns). dict_eq.
  - exists (outer_message e), "Not Connected", []. apply (f_equal Returns). dict_eq.
  - exists ("⚠️  Connected but Error: " ++ str_prefix 50 (exn_str e)), "Connected", [].
    apply (f_equal Returns). dict_eq.
  - exists "✅ Connected & Working", "Connected", (take 10 names). apply (f_equal Returns). dict_eq.
Qed.

(** ** Connection status, database text and collections *)

Lemma outer_message_not_working (e : exn) :
  outer_message e ≠ "✅ Connected & Working".
Proof. unfold outer_message. by destruct (isinstance_ImportError e). Qed.

(** Closing an equivalence between two literal texts and a state of the
    handle, once the state is settled. *)
Ltac settle_iff :=
  repeat split; intros; first [done | tauto | exfalso; tauto].

(** X2: [connection_status] is "Connected" exactly when the handle is
    there and reading [db.name] does not raise (the attribute may be
    absent), and "Not Connected" otherwise; a failure of
    [list_collection_names] afterwards leaves it at "Connected". *)
Theorem connection_status_iff_readable (w : world) :
  ∃ r, test_database w = Returns r ∧
       (r !! "connection_status" = Some (PStr "Connected") ↔ handle_readable w) ∧
       (r !! "connection_status" = Some (PStr "Not Connected") ↔ ¬ handle_readable w).
Proof.
  destruct (test_database_cases w) as (r' & -> & Hcases).
  eexists. split; [reflexivity|].
  destruct Hcases as
    [(e & He & ->) | [(He & ->) | [(db & e & He & Hn & ->) |
     [(db & has & v & e & He & Hn & _ & ->) | (db & has & v & names & He & Hn & _ & ->)]]]];
    dict_lookup.
  1-3: assert (¬ handle_readable w)
         by (intros (db' & has' & ? & ?); congruence); settle_iff.
  all: assert (handle_readable w) by (by exists db, has); settle_iff.
Qed.

Lemma connection_status_iff_readable_witness :
  ∃ r, test_database world_unreachable = Returns r ∧
       r !! "connection_status" = Some (PStr "Connected").
Proof.
  destruct (connection_status_iff_readable world_unreachable) as (r & Hr & Hc & _).
  exists r. split; [exact Hr|]. apply Hc.
  exists db_unreachable, true. split; reflexivity.
Defined.

(** X3: [database] is "✅ Connected & Working" exactly when the handle
    is there, reading [db.name] does not raise and
    [list_collection_names] returns. *)
Theorem database_working_iff (w : world) :
  ∃ r, test_database w = Returns r ∧
       (r !! "database" = Some (PStr "✅ Connected & Working")
        ↔ ∃ names, handle_lists w names).
Proof.
  destruct (test_database_cases w) as (r' & -> & Hcases).
  eexists. split; [reflexivity|].
  destruct Hcases as
    [(e & He & ->) | [(He & ->) | [(db & e & He & Hn & ->) |
     [(db & has & v & e & He & Hn & Hl & ->) | (db & has & v & names & He & Hn & Hl & ->)]]]];
    dict_lookup.
  1-4: assert (¬ ∃ names, handle_lists w names)
         by (intros (names & db' & has' & ? & ? & ?); congruence).
  5: assert (∃ names, handle_lists w names) by (by exists names, db, has).
  1,3: split; [intros [= Hm]; by apply outer_message_not_working in Hm | tauto].
  all: settle_iff.
Qed.

Lemma database_working_iff_witness :
  ∃ r, test_database world_nameless = Returns r ∧
       r !! "database" = Some (PStr "✅ Connected & Working").
Proof.
  destruct (database_working_iff world_nameless) as (r & Hr & Hd).
  exists r. split; [exact Hr|]. apply Hd.
  eexists. exists db_nameless, false. repeat split; reflexivity.
Defined.

(** X4: when the handle lists its collections, [collections] holds the
    first ten names in the order reported, and all of them when there are
    at most ten. *)
Theorem collections_first_ten (w : world) (names : list string) :
  handle_lists w names →
  ∃ r, test_database w = Returns r ∧
       r !! "collections" = Some (PList (PStr <$> take 10 names)) ∧
       ((List.length names ≤ 10)%nat →
        r !! "collections" = Some (PList (PStr <$> names))).
Proof.
  intros (db & has & He & Hn & Hl).
  destruct (test_database_cases w) as (r' & -> & Hcases).
  eexists. split; [reflexivity|].
  destruct Hcases as
    [(e & He' & ->) | [(He' & ->) | [(db' & e & He' & Hn' & ->) |
     [(db' & has' & v & e & He' & Hn' & Hl' & ->) |
      (db' & has' & v & names' & He' & Hn' & Hl' & ->)]]]];
    try congruence.
  assert (names' = names) as -> by congruence.
  dict_lookup. split; [done|].
  intros Hlen. by rewrite take_ge.
Qed.

Lemma collections_first_ten_witness :
  ∃ r, test_database world_working = Returns r ∧
       r !! "collections"
         = Some (PList [PStr "c01"; PStr "c02"; PStr "c03"; PStr "c04"; PStr "c05";
                        PStr "c06"; PStr "c07"; PStr "c08"; PStr "c09"; PStr "c10"]).
Proof.
  destruct (collections_first_ten world_working
              (["c01"; "c02"; "c03"; "c04"; "c05"; "c06";
                "c07"; "c08"; "c09"; "c10"; "c11"; "c12"]))
    as (r & Hr & Hc & _).
  - exists db_working, true. repeat split; reflexivity.
  - exists r. split; [exact Hr | exact Hc].
Defined.

(** X5: in every failure of the database collaborator [collections]
    stays the empty list. *)
Theorem collections_empty_on_failure (w : world) (msg : string) :
  db_failure w msg →
  ∃ r, test_database w = Returns r ∧ r !! "collections" = Some (PList []).
Proof.
  intros Hf.
  destruct (test_database_cases w) as (r' & -> & Hcases).
  eexists. split; [reflexivity|].
  destruct Hcases as
    [(e & He' & ->) | [(He' & ->) | [(db' & e & He' & Hn' & ->) |
     [(db' & has' & v & e & He' & Hn' & Hl' & ->) |
      (db' & has' & v & names' & He' & Hn' & Hl' & ->)]]]];
    dict_lookup; try done.
  destruct Hf as [e He | He | db e He Hn | db has e He Hn Hl]; congruence.
Qed.

Lemma collections_empty_on_failure_witness :
  ∃ r, test_database world_unreachable = Returns r ∧
       r !! "collections" = Some (PList []).
Proof.
  apply (collections_empty_on_failure world_unreachable
           ("⚠️  Connected but Error: " ++
            str_prefix 50 "localhost:27017: [Errno 111] Connection refused")).
  apply (fail_list_collection_names world_unreachable db_unreachable true
           (Exn (OtherException "ServerSelectionTimeoutError")
                "localhost:27017: [Errno 111] Connection refused"));
    reflexivity.
Defined.

(** ** The exception text in the response *)






(** ** What the response does not depend on *)

(** X7: the response does not depend on [db.name]: two handles that
    differ only in the value of [name], or in whether they have the
    attribute at all, give the same response. *)
Theorem db_name_not_in_response (env : gmap string string)
    (schemas : outcome py_module) (name1 name2 : outcome pyval)
    (listing : outcome (list string)) (has1 has2 : bool) :
  hasattr_name (DbHandle name1 listing) = Returns has1 →
  hasattr_name (DbHandle name2 listing) = Returns has2 →
  test_database (World env (Returns (Some (DbHandle name1 listing))) schemas)
    = test_database (World env (Returns (Some (DbHandle name2 listing))) schemas).
Proof.
  intros H1 H2.
  destruct (test_database_cases
              (World env (Returns (Some (DbHandle name1 listing))) schemas))
    as (r1 & -> & Hc1).
  destruct (test_database_cases
              (World env (Returns (Some (DbHandle name2 listing))) schemas))
    as (r2 & -> & Hc2).
  apply (f_equal Returns). unfold env_flag, getenv. cbn [environ].
  destruct Hc1 as
    [(e & He & _) | [(He & _) | [(db & e & He & Hn & _) |
     [(db & has & v & e & He & Hn & Hl & ->) | (db & has & v & names & He & Hn & Hl & ->)]]]];
    cbn [import_database_db] in *; simplify_eq;
    cbn [db_list_collection_names] in *; simplify_eq; try congruence.
  all: destruct Hc2 as
    [(e' & He' & _) | [(He' & _) | [(db' & e' & He' & Hn' & _) |
     [(db' & has' & v' & e' & He' & Hn' & Hl' & ->) |
      (db' & has' & v' & names' & He' & Hn' & Hl' & ->)]]]];
    cbn [import_database_db] in *; simplify_eq;
    cbn [db_list_collection_names] in *; simplify_eq; try congruence.
  all: dict_eq.
Qed.

Lemma db_name_not_in_response_witness :
  test_database world_working = test_database world_nameless.
Proof.
  apply (db_name_not_in_response env_configured (Raises (no_module "schemas"))
           (Returns (PStr "appdb"))
           (Raises (Exn AttributeError "'Database' object has no attribute 'name'"))
           (db_list_collection_names db_working) true false);
    reflexivity.
Defined.

Lemma env_flag_cases (w : world) (key : string) :
  env_flag w key = PStr "✅ Set" ∨ env_flag w key = PStr "❌ Not Set".
Proof. unfold env_flag. destruct (truthy (getenv w key)); auto. Qed.

Lemma env_flag_ext (w1 w2 : world) (key : string) :
  (env_nonempty w1 key ↔ env_nonempty w2 key) → env_flag w1 key = env_flag w2 key.
Proof.
  intros Hiff.
  destruct (env_flag_cases w1 key) as [H1|H1], (env_flag_cases w2 key) as [H2|H2];
    try congruence.
  - apply env_flag_set in H1. apply env_flag_not_set in H2. tauto.
  - apply env_flag_not_set in H1. apply env_flag_set in H2. tauto.
Qed.

(** X8: of the environment, the response depends only on whether
    [DATABASE_URL] and [DATABASE_NAME] are set to a non-empty string: not
    on their values, and not on any other variable. *)
Theorem test_database_env_nonempty_only (w1 w2 : world) :
  import_database_db w1 = import_database_db w2 →
  (env_nonempty w1 "DATABASE_URL" ↔ env_nonempty w2 "DATABASE_URL") →
  (env_nonempty w1 "DATABASE_NAME" ↔ env_nonempty w2 "DATABASE_NAME") →
  test_database w1 = test_database w2.
Proof.
  intros Hdb Hurl Hname.
  destruct (test_database_unfold w1) as (r1 & Hp1 & ->).
  destruct (test_database_unfold w2) as (r2 & Hp2 & ->).
  assert (probe_database w1 = probe_database w2) as Hprobe.
  { unfold probe_database. by rewrite Hdb. }
  rewrite Hprobe, Hp2 in Hp1. injection Hp1 as ->.
  by rewrite (env_flag_ext w1 w2 _ Hurl), (env_flag_ext w1 w2 _ Hname).
Qed.

Lemma test_database_env_nonempty_only_witness :
  test_database world_working = test_database world_other_values.
Proof.
  apply (test_database_env_nonempty_only world_working world_other_values).
  - reflexivity.
  - split; intros _.
    + exists "x". split; [reflexivity | discriminate].
    + exists "mongodb://localhost:27017". split; [reflexivity | discriminate].
  - split; intros _.
    + exists "y". split; [reflexivity | discriminate].
    + exists "appdb". split; [reflexivity | discriminate].
Defined.

(** ** No request ends in status 500 *)



(** ** Which members get an entry in [GET /schema] *)

(** X10: [definitions] has an entry under a name exactly when a member
    of that name is a class that subclasses [BaseModel] and whose
    [__module__] is the name of the schemas module; classes imported into
    the module, other classes and other objects get none. *)
Theorem schema_entry_iff_schema_class (m : py_module) (name : string) :
  is_Some (schema_definitions m !! name) ↔
  ∃ model, (name, PyClass model) ∈ getmembers m ∧
           cls_is_BaseModel model = true ∧
           cls_module model = mod_name m.
Proof.
  split.
  - intros [entry Hentry].
    apply schema_definitions_sound in Hentry as (model & Hin & Hcls & _).
    exists model. split; [done|].
    unfold is_schema_class in Hcls. apply andb_true_iff in Hcls as [Hb Hm].
    by apply String.eqb_eq in Hm.
  - intros (model & Hin & Hb & Hm).
    apply (schema_definitions_complete m name model Hin).
    unfold is_schema_class. rewrite Hb, Hm. by rewrite String.eqb_refl.
Qed.

Example schemas_plain_only_User :
  dom (schema_definitions schemas_plain) = {[ "User" ]}.
Proof. vm_compute. reflexivity. Qed.

Lemma schema_fold_other (m : py_module) (name : string)
    (members : list (string * pyobj)) (acc : gmap string pyval) :
  name ∉ members.*1 →
  foldl (schema_step m) acc members !! name = acc !! name.
Proof.
  revert acc. induction members as [|[n obj] members IH]; intros acc Hnot; [done|].
  cbn [foldl]. rewrite fmap_cons in Hnot. apply not_elem_of_cons in Hnot as [Hne Hnot].
  rewrite IH by done. unfold schema_step. cbn [fst snd] in *.
  destruct obj as [model|]; [|done].
  destruct (is_schema_class m (PyClass model)); [|done].
  by rewrite lookup_insert_ne.
Qed.

Lemma schema_fold_member (m : py_module) (name : string) (model : pyclass)
    (members : list (string * pyobj)) (acc : gmap string pyval) :
  NoDup members.*1 →
  (name, PyClass model) ∈ members →
  is_schema_class m (PyClass model) = true →
  foldl (schema_step m) acc members !! name = Some (schema_entry name model).
Proof.
  intros Hnd Hin Hcls. revert acc Hnd Hin.
  induction members as [|[n obj] members IH]; intros acc Hnd Hin.
  - by apply elem_of_nil in Hin.
  - rewrite fmap_cons in Hnd. apply NoDup_cons in Hnd as [Hnot Hnd].
    cbn [foldl]. apply elem_of_cons in Hin as [[= <- <-]|Hin].
    + rewrite schema_fold_other by done.
      unfold schema_step. cbn [fst snd]. rewrite Hcls. apply lookup_insert_eq.
    + by apply IH.
Qed.

(** X11: with member names that are distinct, as [inspect.getmembers]
    gives them, the entry under the name of a schema class is the entry
    built from that class, and its [fields] are those of the class. *)
Theorem schema_entry_of_member (m : py_module) (name : string) (model : pyclass) :
  NoDup (getmembers m).*1 →
  (name, PyClass model) ∈ getmembers m →
  cls_is_BaseModel model = true →
  cls_module model = mod_name m →
  schema_definitions m !! name = Some (schema_entry name model) ∧
  getitem (schema_entry name model) "fields" = Some (PList (fields_info model)).
Proof.
  intros Hnd Hin Hb Hm. split; [|apply schema_entry_items].
  apply schema_fold_member; [done..|].
  unfold is_schema_class. rewrite Hb, Hm. by rewrite String.eqb_refl.
Qed.

Lemma schema_entry_of_member_witness :
  schema_definitions schemas_plain !! "User" = Some (schema_entry "User" User_class) ∧
  getitem (schema_entry "User" User_class) "fields"
    = Some (PList (fields_info User_class)).
Proof.
  apply (schema_entry_of_member schemas_plain "User" User_class).
  - apply (bool_decide_unpack _). vm_compute. exact I.
  - apply list_elem_of_In. simpl. tauto.
  - reflexivity.
  - reflexivity.
Defined.


(** ** The [default] and [description] of a field *)

(** X12: the [default] of a field is [None] when the field is required
    and the declared default value otherwise; a field that declares only
    a default factory is reported as not required with the sentinel
    [PydanticUndefined] as its [default]. *)
Theorem field_default_reported (model : pyclass) (i : nat)
    (fname : string) (f : FieldInfo) :
  model_fields model !! i = Some (fname, f) →
  ∃ fd, fields_info model !! i = Some fd ∧
        (is_required f = true → getitem fd "default" = Some PNone) ∧
        (is_required f = false → getitem fd "default" = Some (fi_default f)) ∧
        (fi_default f = PUndefined → is_Some (fi_default_factory f) →
         getitem fd "required" = Some (PBool false) ∧
         getitem fd "default" = Some PUndefined).
Proof.
  intros Hi. exists (field_entry fname f).
  unfold fields_info. rewrite list_lookup_fmap, Hi. split; [done|].
  assert (getitem (field_entry fname f) "default"
          = Some (if is_required f then PNone else fi_default f)) as Hd.
  { unfold field_entry, getitem. dict_lookup.
    destruct (is_required f); [done|]. by destruct (fi_default f). }
  assert (getitem (field_entry fname f) "required" = Some (PBool (is_required f)))
    as Hr by apply field_entry_items.
  split; [by intros Hreq; rewrite Hd, Hreq|].
  split; [by intros Hreq; rewrite Hd, Hreq|].
  intros Hu [g Hg].
  assert (is_required f = false) as Hreq.
  { unfold is_required. rewrite Hg. apply andb_false_r. }
  rewrite Hd, Hr, Hreq, Hu. done.
Qed.

Lemma field_default_reported_witness :
  ∃ fd, fields_info User_class !! 2%nat = Some fd ∧
        getitem fd "required" = Some (PBool false) ∧
        getitem fd "default" = Some PUndefined.
Proof.
  destruct (field_default_reported User_class 2 "tags"
              (MkFieldInfo "typing.List[str]" PUndefined (Some "list") None))
    as (fd & Hfd & _ & _ & Hf).
  - reflexivity.
  - exists fd. split; [exact Hfd|]. apply Hf; [reflexivity | by eexists].
Defined.

(** X13: the [description] of a field is its declared description when
    that is a non-empty string, and [None] when there is none or it is
    the empty string. *)
Theorem field_description_reported (model : pyclass) (i : nat)
    (fname : string) (f : FieldInfo) :
  model_fields model !! i = Some (fname, f) →
  ∃ fd, fields_info model !! i = Some fd ∧
        (∀ s, fi_description f = Some s → s ≠ "" →
              getitem fd "description" = Some (PStr s)) ∧
        (fi_description f = None ∨ fi_description f = Some "" →
         getitem fd "description" = Some PNone).
Proof.
  intros Hi. exists (field_entry fname f).
  unfold fields_info. rewrite list_lookup_fmap, Hi. split; [done|].
  unfold field_entry, getitem, getattr_description. dict_lookup. split.
  - intros s -> Hs. cbn [truthy].
    destruct (String.eqb_spec s ""); [done|reflexivity].
  - by intros [-> | ->].
Qed.

Lemma field_description_reported_witness :
  ∃ fd, fields_info User_class !! 0%nat = Some fd ∧
        getitem fd "description" = Some (PStr "Full name").
Proof.
  destruct (field_description_reported User_class 0 "name"
              (MkFieldInfo "<class 'str'>" PUndefined None (Some "Full name")))
    as (fd & Hfd & Hs & _).
  - reflexivity.
  - exists fd. split; [exact Hfd|]. by apply Hs.
Defined.
